(** * jsts.operation.buffer.BufferOp

    A shallow embedding of [src/jsts/operation/buffer/BufferOp.js] and the
    properties of its buffer computation.

    Conventions of the embedding.

    - A JavaScript number is a binary64 value ([spec_float] at precision 53),
      with the arithmetic, the rounding and the comparisons of IEEE 754.
      [Math.log] and [Math.pow] are fixed on the arguments for which the
      language fixes them; on the others the language leaves their results
      to the engine, and they are the two functions of a [Libm].
    - The file is not in strict mode and declares no variable.  A name that
      is neither a parameter nor a [var] of the function it stands in is
      looked up in the global scope: reading it when it is not bound raises
      a [ReferenceError], assigning to it creates a global.  The global
      scope holds [jsts], the built-in objects and the globals the
      assignments of this file create, [resultGeometry] and [saveException];
      no other unqualified name of the file is bound in it.
    - A member is whatever the last assignment to its name stored: the
      assignments of the file are kept in source order and a name is
      resolved by the last one. *)

From Stdlib Require Import ZArith List String Bool Arith Lia.
From Stdlib Require Import Floats.SpecFloat.
Import ListNotations.

Set Implicit Arguments.

(* ================================================================== *)
(** ** JavaScript numbers *)

Module JsNumber.

Definition number : Type := spec_float.

Definition prec : Z := 53.
Definition emax : Z := 1024.

Definition NaN : number := S754_nan.
Definition PosInf : number := S754_infinity false.
Definition NegInf : number := S754_infinity true.
Definition zero : number := S754_zero false.

(** The number an integer literal denotes. *)
Definition of_Z (z : Z) : number := binary_normalize prec emax z 0 false.

Definition one : number := of_Z 1.
Definition two : number := of_Z 2.
Definition ten : number := of_Z 10.

Definition add (a b : number) : number := SFadd prec emax a b.
Definition sub (a b : number) : number := SFsub prec emax a b.
Definition mul (a b : number) : number := SFmul prec emax a b.
Definition div (a b : number) : number := SFdiv prec emax a b.
Definition neg (a : number) : number := SFopp a.

(** [a > b] *)
Definition gt (a b : number) : bool := SFltb b a.

(** [a <= b] *)
Definition le (a b : number) : bool := SFleb a b.

Definition is_finite (a : number) : bool :=
  match a with
  | S754_zero _ | S754_finite _ _ _ => true
  | _ => false
  end.

Definition positive_finite (a : number) : bool :=
  match a with
  | S754_finite false _ _ => true
  | _ => false
  end.

(** [Math.max(a, b)]: not a number when either is, and [+0] above [-0]. *)
Definition Math_max (a b : number) : number :=
  match SFcompare a b with
  | None => NaN
  | Some Lt => b
  | Some Gt => a
  | Some Eq =>
      match a, b with
      | S754_zero true, S754_zero false => b
      | _, _ => a
      end
  end.

(** [Math.log(x)] where the language fixes it; [approx m e] is the engine's
    result for the positive finite argument [m * 2^e]. *)
Definition log_with (approx : positive -> Z -> number) (x : number) : number :=
  match x with
  | S754_nan => NaN
  | S754_zero _ => NegInf
  | S754_infinity false => PosInf
  | S754_infinity true => NaN
  | S754_finite true _ _ => NaN
  | S754_finite false m e => if SFeqb x one then zero else approx m e
  end.

(** The engine's part of [Math.log] and of [Math.pow(10.0, y)]: their
    results on the finite arguments the language leaves to the
    implementation.  Of these results only one thing is required:
    [Math.log(10)] is a positive finite number. *)
Record Libm : Type := {
  log_finite : positive -> Z -> number;
  pow10_finite : bool -> positive -> Z -> number;
  log_ten_positive : positive_finite (log_with log_finite ten) = true
}.

(** [Math.log(x)] *)
Definition Math_log (L : Libm) (x : number) : number :=
  log_with (log_finite L) x.

(** [Math.pow(10.0, y)]: the cases of exponentiation for the base 10, the
    only base the file uses. *)
Definition Math_pow_10 (L : Libm) (y : number) : number :=
  match y with
  | S754_nan => NaN
  | S754_infinity false => PosInf
  | S754_infinity true => zero
  | S754_zero _ => one
  | S754_finite s m e => pow10_finite L s m e
  end.

End JsNumber.

Import JsNumber.

(* ================================================================== *)
(** ** Collaborators of the operation

    The classes below are used by the file but defined outside it; they are
    represented by what the file observes of them. *)

Module Jsts.

Inductive PrecisionModelType : Type := FIXED | FLOATING.

Record PrecisionModel : Type := {
  getType : PrecisionModelType;
  getScale : number
}.

(** [new jsts.geom.PrecisionModel(scale)]: the class is defined outside the
    file; the object is represented by the fixed-grid model of that
    scale. *)
Definition new_PrecisionModel (scale : number) : PrecisionModel :=
  {| getType := FIXED; getScale := scale |}.

Record Envelope : Type := {
  getHeight : number;
  getWidth : number
}.

Record Geometry : Type := {
  getEnvelopeInternal : Envelope;
  getPrecisionModel : PrecisionModel
}.

Record BufferParameters : Type := {
  quadrantSegments : number;
  endCapStyle : number;
  joinStyle : number;
  mitreLimit : number
}.

(** The errors an evaluation can raise: those of the language, a
    [ReferenceError] naming the identifier that is not bound, and the
    classes the specification names. *)
Inductive Error : Type :=
| ReferenceError (name : string)
| TypeError
| RangeError
| RobustnessFailure (tag : nat)
| InvalidArgument (tag : nat)
| OutOfMemory
| BufferComputationFailed (cause : Error).

Inductive value : Type :=
| undefined
| null
| vnum (n : number)
| vgeom (g : Geometry)
| vparams (p : BufferParameters)
| vpm (p : PrecisionModel)
| verr (e : Error).

Definition ToNumber (v : value) : number :=
  match v with
  | vnum n => n
  | null => zero
  | _ => NaN
  end.

Definition ToBoolean (v : value) : bool :=
  match v with
  | undefined | null => false
  | vnum S754_nan | vnum (S754_zero _) => false
  | _ => true
  end.

(** [v != null] *)
Definition not_null (v : value) : bool :=
  match v with
  | undefined | null => false
  | _ => true
  end.

Inductive completion : Type :=
| Normal (v : value)
| Throw (v : value).

(** A [BufferBuilder] as the file configures it: the parameters given to
    its constructor and the two optional settings. *)
Record BufferBuilder : Type := {
  builder_bufParams : value;
  workingPrecisionModel : option value;
  noder : option value
}.

Definition new_BufferBuilder (bufParams : value) : BufferBuilder :=
  {| builder_bufParams := bufParams;
     workingPrecisionModel := None;
     noder := None |}.

Definition setWorkingPrecisionModel (pm : value) (b : BufferBuilder)
  : BufferBuilder :=
  {| builder_bufParams := builder_bufParams b;
     workingPrecisionModel := Some pm;
     noder := noder b |}.

Definition setNoder (n : value) (b : BufferBuilder) : BufferBuilder :=
  {| builder_bufParams := builder_bufParams b;
     workingPrecisionModel := workingPrecisionModel b;
     noder := Some n |}.

(** One call [bufBuilder.buffer(g, distance)]. *)
Record Attempt : Type := {
  attempt_builder : BufferBuilder;
  attempt_geometry : value;
  attempt_distance : value
}.

End Jsts.

Import Jsts.

(* ================================================================== *)
(** ** The operation *)

Module BufferOp.

Local Open Scope string_scope.

(** [jsts.operation.buffer.BufferOp.MAX_PRECISION_DIGITS = 12] *)
Definition MAX_PRECISION_DIGITS : number := of_Z 12.

(** [jsts.operation.buffer.BufferOp.precisionScaleFactor] *)
Definition precisionScaleFactor (L : Libm) (g : Geometry)
  (distance maxPrecisionDigits : value) : number :=
  let env := getEnvelopeInternal g in
  let envSize := Math_max (getHeight env) (getWidth env) in
  let expandByDistance :=
    if gt (ToNumber distance) zero then distance else vnum zero in
  let bufEnvSize := add envSize (mul two (ToNumber expandByDistance)) in
  let bufEnvLog10 := add (div (Math_log L bufEnvSize) (Math_log L ten)) one in
  let minUnitLog10 := sub bufEnvLog10 (ToNumber maxPrecisionDigits) in
  let scaleFactor := Math_pow_10 L (neg minUnitLog10) in
  scaleFactor.

(** The members of a [BufferOp]; the prototype gives each the value
    [null]. *)
Record BufferOp : Type := {
  argGeom : value;
  distance : value;
  bufParams : value;
  resultGeometry : value
}.

(** The globals the assignments of the file create; [None] while the name
    is not bound. *)
Record Scope : Type := {
  global_resultGeometry : option value;
  global_saveException : option value
}.

Definition no_globals : Scope :=
  {| global_resultGeometry := None; global_saveException := None |}.

(** What an unqualified name is bound to in the global scope. *)
Definition lookup (name : string) (sc : Scope) : option value :=
  if String.eqb name "resultGeometry" then global_resultGeometry sc
  else if String.eqb name "saveException" then global_saveException sc
  else None.

(** The object, the global scope and the calls made to
    [BufferBuilder.buffer] so far, the most recent first. *)
Record State : Type := {
  this : BufferOp;
  scope : Scope;
  calls : list Attempt
}.

Definition M : Type := State -> completion * State.

Definition ret (v : value) : M := fun st => (Normal v, st).
Definition throw (v : value) : M := fun st => (Throw v, st).

Definition bind (m : M) (k : value -> M) : M :=
  fun st =>
    match m st with
    | (Normal v, st') => k v st'
    | (Throw e, st') => (Throw e, st')
    end.

Notation "x <- m ;; k" := (bind m (fun x => k))
  (at level 61, m at next level, right associativity).
Notation "m ;; k" := (bind m (fun _ => k))
  (at level 61, right associativity).

(** Reading an unqualified name. *)
Definition read_free (name : string) : M := fun st =>
  match lookup name (scope st) with
  | Some v => (Normal v, st)
  | None => (Throw (verr (ReferenceError name)), st)
  end.

(** Assigning to an unqualified name: [resultGeometry = v] and
    [saveException = v], the two assignments of the file, create or update
    the global. *)
Definition assign_free (name : string) (v : value) : M := fun st =>
  let sc := scope st in
  let sc' :=
    if String.eqb name "resultGeometry"
    then {| global_resultGeometry := Some v;
            global_saveException := global_saveException sc |}
    else if String.eqb name "saveException"
    then {| global_resultGeometry := global_resultGeometry sc;
            global_saveException := Some v |}
    else sc in
  (Normal v, {| this := this st; scope := sc'; calls := calls st |}).

(** The arguments of a call, evaluated from left to right. *)
Fixpoint eval_args (args : list M) (k : list value -> M) : M :=
  match args with
  | [] => k []
  | a :: rest => v <- a ;; eval_args rest (fun vs => k (v :: vs))
  end.

(** A call [name(args)] or [new name(args)] of an unqualified name: the
    name is read first; what the global scope can bind it to is no
    function, so after the arguments the call is a [TypeError]. *)
Definition call_free (name : string) (args : list M) : M :=
  read_free name ;; eval_args args (fun _ => throw (verr TypeError)).

Definition new_free (name : string) (args : list M) : M :=
  read_free name ;; eval_args args (fun _ => throw (verr TypeError)).

(** [this.distance = v] *)
Definition set_distance (v : value) : M := fun st =>
  (Normal v,
   {| this := {| argGeom := argGeom (this st);
                 distance := v;
                 bufParams := bufParams (this st);
                 resultGeometry := resultGeometry (this st) |};
      scope := scope st;
      calls := calls st |}).

(** [fixedPM.getScale()] *)
Definition getScale_of (fixedPM : value) : M :=
  match fixedPM with
  | vpm pm => ret (vnum (getScale pm))
  | _ => throw (verr TypeError)
  end.

(** The definitions the file assigns to members of the prototype, by the
    line of the assignment. *)
Inductive method : Type :=
| getResultGeometry_216
| computeGeometry_222
| bufferReducedPrecision_234
| bufferOriginalPrecision_252
| bufferReducedPrecision_258
| bufferFixedPrecision_268.

(** The assignments of functions to
    [jsts.operation.buffer.BufferOp.prototype], in source order. *)
Definition prototype : list (string * method) :=
  [ ("getResultGeometry", getResultGeometry_216);
    ("computeGeometry", computeGeometry_222);
    ("bufferReducedPrecision", bufferReducedPrecision_234);
    ("bufferOriginalPrecision", bufferOriginalPrecision_252);
    ("bufferReducedPrecision", bufferReducedPrecision_258);
    ("bufferFixedPrecision", bufferFixedPrecision_268) ].

(** The static definitions named [bufferOp], by the line of the
    assignment. *)
Inductive static_method : Type :=
| bufferOp_109
| bufferOp_129
| bufferOp_150
| bufferOp_175.

(** The assignments to [jsts.operation.buffer.BufferOp.bufferOp], in source
    order. *)
Definition statics : list (string * static_method) :=
  [ ("bufferOp", bufferOp_109);
    ("bufferOp", bufferOp_129);
    ("bufferOp", bufferOp_150);
    ("bufferOp", bufferOp_175) ].

(** The value a name holds after the assignments [l]: the last one made to
    it. *)
Fixpoint resolve (A : Type) (name : string) (l : list (string * A)) : option A :=
  match l with
  | [] => None
  | (n, d) :: rest =>
      match resolve name rest with
      | Some d' => Some d'
      | None => if String.eqb n name then Some d else None
      end
  end.

(** The i-th argument of a call; a missing argument is [undefined]. *)
Definition arg (i : nat) (args : list value) : value := nth i args undefined.

(** The constructor, [jsts.operation.buffer.BufferOp = function(g, bufParams)]
    (line 50): the object it leaves, or what it throws.  [bufParams] is its
    parameter; [BufferParameters] is an unqualified name. *)
Definition construct (g bufParams : value) (sc : Scope) : BufferOp + value :=
  if ToBoolean bufParams
  then inl {| argGeom := g;
              distance := null;
              bufParams := bufParams;
              resultGeometry := null |}
  else
    match lookup "BufferParameters" sc with
    | None => inr (verr (ReferenceError "BufferParameters"))
    | Some _ => inr (verr TypeError)
    end.

(** [new BufferOp(g)] with the class named without its path (line 177). *)
Definition construct_unqualified (g : value) (sc : Scope) : BufferOp + value :=
  match lookup "BufferOp" sc with
  | None => inr (verr (ReferenceError "BufferOp"))
  | Some _ => inr (verr TypeError)
  end.

Section Operation.

(** [BufferBuilder.buffer]: what the builder answers to a call, given the
    calls made before it. *)
Variable buffer : list Attempt -> Attempt -> completion.

(** [bufBuilder.buffer(g, distance)] *)
Definition buffer_call (bufBuilder : BufferBuilder) (g d : value) : M := fun st =>
  let a := {| attempt_builder := bufBuilder;
              attempt_geometry := g;
              attempt_distance := d |} in
  (buffer (calls st) a,
   {| this := this st; scope := scope st; calls := a :: calls st |}).

(** [bufferOriginalPrecision], line 252 *)
Definition bufferOriginalPrecision : M :=
  bufParams <- read_free "bufParams" ;;
  let bufBuilder := new_BufferBuilder bufParams in
  argGeom <- read_free "argGeom" ;;
  distance <- read_free "distance" ;;
  r <- buffer_call bufBuilder argGeom distance ;;
  assign_free "resultGeometry" r ;;
  ret undefined.

(** [bufferFixedPrecision(fixedPM)], line 268 *)
Definition bufferFixedPrecision (fixedPM : value) : M :=
  noder <- new_free "ScaledNoder"
             [ new_free "MCIndexSnapRounder"
                 [ new_free "PrecisionModel" [ ret (vnum one) ] ];
               getScale_of fixedPM ] ;;
  bufParams <- read_free "bufParams" ;;
  let bufBuilder := new_BufferBuilder bufParams in
  let bufBuilder := setWorkingPrecisionModel fixedPM bufBuilder in
  let bufBuilder := setNoder noder bufBuilder in
  argGeom <- read_free "argGeom" ;;
  distance <- read_free "distance" ;;
  r <- buffer_call bufBuilder argGeom distance ;;
  assign_free "resultGeometry" r ;;
  ret undefined.

(** [bufferReducedPrecision(precisionDigits)], line 258 *)
Definition bufferReducedPrecision_digits (precisionDigits : value) : M :=
  sizeBasedScaleFactor <-
    call_free "precisionScaleFactor"
      [ read_free "argGeom"; read_free "distance"; ret precisionDigits ] ;;
  let fixedPM := vpm (new_PrecisionModel (ToNumber sizeBasedScaleFactor)) in
  call_free "bufferFixedPrecision" [ ret fixedPM ] ;;
  ret undefined.

(** The methods reach each other through the prototype: [self name args] is
    the call of the member [name] of [this]. *)
Section Bodies.

Variable self : string -> list value -> M.

(** The number of turns of a loop that are followed. *)
Variable turns : nat.

(** [try { this.bufferReducedPrecision(precDigits); }
     catch (ex) { saveException = ex; }]: the [catch] names no class and
    takes whatever is thrown. *)
Definition try_bufferReducedPrecision (precDigits : value) : M := fun st =>
  match self "bufferReducedPrecision" [precDigits] st with
  | (Normal _, st') => (Normal undefined, st')
  | (Throw ex, st') => assign_free "saveException" ex st'
  end.

(** The loop of [bufferReducedPrecision()], line 234, from the test
    [precDigits >= 0] on, and the [throw] after it.  A run of more than
    [fuel] turns is cut, as one that exceeds the depth of calls is. *)
Fixpoint bufferReducedPrecision_from (fuel : nat) (precDigits : value) : M :=
  match fuel with
  | O => throw (verr RangeError)
  | S f =>
      if le zero (ToNumber precDigits)
      then
        try_bufferReducedPrecision precDigits ;;
        result <- read_free "resultGeometry" ;;
        if not_null result then ret undefined
        else bufferReducedPrecision_from f
               (vnum (sub (ToNumber precDigits) one))
      else saved <- read_free "saveException" ;; throw saved
  end.

(** [bufferReducedPrecision()], line 234.  The initialiser of the loop,
    [var precDigits = MAX_PRECISION_DIGITS], reads an unqualified name,
    outside the [try]. *)
Definition bufferReducedPrecision_loop : M :=
  precDigits <- read_free "MAX_PRECISION_DIGITS" ;;
  bufferReducedPrecision_from turns precDigits.

(** [computeGeometry], line 222 *)
Definition computeGeometry : M :=
  self "bufferOriginalPrecision" [] ;;
  result <- read_free "resultGeometry" ;;
  if not_null result then ret undefined
  else
    argGeom <- read_free "argGeom" ;;
    match argGeom with
    | vgeom g =>
        let argPM := getPrecisionModel g in
        (* argPM.getType() == PrecisionModel.FIXED *)
        let type := getType argPM in
        read_free "PrecisionModel" ;;
        match type with
        | FIXED => call_free "bufferFixedPrecision" [ ret (vpm argPM) ]
        | FLOATING => call_free "bufferReducedPrecision" []
        end ;;
        ret undefined
    | _ => throw (verr TypeError)
    end.

(** [getResultGeometry(distance)], line 216 *)
Definition getResultGeometry (distance : value) : M :=
  set_distance distance ;;
  self "computeGeometry" [] ;;
  read_free "resultGeometry".

(** The body of a definition, applied to the arguments of a call. *)
Definition body (m : method) (args : list value) : M :=
  match m with
  | getResultGeometry_216 => getResultGeometry (arg 0 args)
  | computeGeometry_222 => computeGeometry
  | bufferReducedPrecision_234 => bufferReducedPrecision_loop
  | bufferOriginalPrecision_252 => bufferOriginalPrecision
  | bufferReducedPrecision_258 => bufferReducedPrecision_digits (arg 0 args)
  | bufferFixedPrecision_268 => bufferFixedPrecision (arg 0 args)
  end.

End Bodies.

(** A method call on [this]: the name is looked up in the prototype and the
    body runs with the calls it makes one level deeper; a name the
    prototype does not hold is no function.  [depth] bounds the nesting of
    calls, beyond which the engine raises a [RangeError], and the turns of
    a loop. *)
Fixpoint call (depth : nat) (name : string) (args : list value) : M :=
  match depth with
  | O => throw (verr RangeError)
  | S d =>
      match resolve name prototype with
      | Some m => body (call d) d m args
      | None => throw (verr TypeError)
      end
  end.

(** The methods a static definition calls on the object it constructed;
    when the constructor threw, that is the outcome. *)
Definition on_object (obj : BufferOp + value) (m : M) (sc : Scope)
  (history : list Attempt) : completion * Scope * list Attempt :=
  match obj with
  | inl op =>
      let (c, st) := m {| this := op; scope := sc; calls := history |} in
      (c, scope st, calls st)
  | inr e => (Throw e, sc, history)
  end.

(** The four definitions of the static [bufferOp]: the completion of the
    call, the global scope and the calls made to the builder. *)
Definition static_body (depth : nat) (m : static_method) (args : list value)
  (sc : Scope) (history : list Attempt) : completion * Scope * list Attempt :=
  let g := arg 0 args in
  let distance := arg 1 args in
  match m with
  | bufferOp_109 =>
      on_object (construct g undefined sc)
        (call depth "getResultGeometry" [distance]) sc history
  | bufferOp_129 =>
      let params := arg 2 args in
      on_object (construct g params sc)
        (call depth "getResultGeometry" [distance]) sc history
  | bufferOp_150 =>
      let quadrantSegments := arg 2 args in
      on_object (construct g undefined sc)
        (call depth "setQuadrantSegments" [quadrantSegments] ;;
         call depth "getResultGeometry" [distance]) sc history
  | bufferOp_175 =>
      let quadrantSegments := arg 2 args in
      let endCapStyle := arg 3 args in
      on_object (construct_unqualified g sc)
        (call depth "setQuadrantSegments" [quadrantSegments] ;;
         call depth "setEndCapStyle" [endCapStyle] ;;
         call depth "getResultGeometry" [distance]) sc history
  end.

(** A call [jsts.operation.buffer.BufferOp.name(args)]. *)
Definition call_static (depth : nat) (name : string) (args : list value)
  (sc : Scope) (history : list Attempt) : completion * Scope * list Attempt :=
  match depth with
  | O => (Throw (verr RangeError), sc, history)
  | S d =>
      match resolve name statics with
      | Some m => static_body d m args sc history
      | None => (Throw (verr TypeError), sc, history)
      end
  end.

End Operation.

End BufferOp.

Import BufferOp.

(* ================================================================== *)
(** ** What a run is observed by *)

Module Trace.

(** An object as the constructor leaves it, in the scope [sc], when the
    builder has answered [history] before. *)
Definition created (params g : value) (sc : Scope) (history : list Attempt)
  : State :=
  {| this := {| argGeom := g;
                distance := null;
                bufParams := params;
                resultGeometry := null |};
     scope := sc;
     calls := history |}.

(** The state once [getResultGeometry(dist)] has stored the distance. *)
Definition requested (dist : value) (st : State) : State :=
  snd (set_distance dist st).

Definition is_BufferComputationFailed (c : completion) : Prop :=
  exists cause, c = Throw (verr (BufferComputationFailed cause)).

Definition is_InvalidArgument (c : completion) : Prop :=
  exists tag, c = Throw (verr (InvalidArgument tag)).

Definition is_RobustnessFailure (c : completion) : Prop :=
  exists tag, c = Throw (verr (RobustnessFailure tag)).

Definition is_ReferenceError (c : completion) : Prop :=
  exists name, c = Throw (verr (ReferenceError name)).

End Trace.

Import Trace.

(* ================================================================== *)
(** ** Concrete requests, builders and an engine *)

Module Sample.

(** A coarse engine.  [Math.log(m * 2^e)] is the binary logarithm of the
    argument, rounded down to an integer, times [ln 2]; [Math.pow(10, y)]
    is the power of two whose exponent is the integer part of [y] times
    3322 / 1000, with overflow to infinity and underflow to zero. *)
Definition ln2 : number := S754_finite false 6243314768165359 (-53).

Definition coarse_log (m : positive) (e : Z) : number :=
  mul (of_Z (Z.log2 (Zpos m) + e)) ln2.

Definition integer_part (s : bool) (m : positive) (e : Z) : Z :=
  let magnitude :=
    match e with
    | Zneg p => Z.shiftr (Zpos m) (Zpos p)
    | _ => Z.shiftl (Zpos m) e
    end in
  if s then Z.opp magnitude else magnitude.

Definition power_of_two (k : Z) : number :=
  if Z.ltb 1023 k then PosInf
  else if Z.ltb k (-1074) then zero
  else if Z.ltb k (-1022)
       then S754_finite false (Z.to_pos (Z.shiftl 1 (k + 1074))) (-1074)
       else S754_finite false 4503599627370496 (k - 52).

Definition coarse_pow10 (s : bool) (m : positive) (e : Z) : number :=
  power_of_two (Z.quot (integer_part s m e * 3322) 1000).

Definition engine : Libm :=
  {| log_finite := coarse_log;
     pow10_finite := coarse_pow10;
     log_ten_positive := eq_refl |}.

Definition half : number := S754_finite false 4503599627370496 (-53).
Definition twelve : number := of_Z 12.

Definition default_params : BufferParameters :=
  {| quadrantSegments := of_Z 8;
     endCapStyle := one;
     joinStyle := one;
     mitreLimit := of_Z 5 |}.

Definition params : value := vparams default_params.

Definition floating_pm : PrecisionModel :=
  {| getType := FLOATING; getScale := zero |}.

(** The unit square [0,0]-[1,1] at floating precision. *)
Definition unit_square : Geometry :=
  {| getEnvelopeInternal := {| getHeight := one; getWidth := one |};
     getPrecisionModel := floating_pm |}.

(** The unit square on a fixed grid of scale 1000. *)
Definition fixed_square : Geometry :=
  {| getEnvelopeInternal := {| getHeight := one; getWidth := one |};
     getPrecisionModel := new_PrecisionModel (of_Z 1000) |}.

(** A single point: an envelope of no extent. *)
Definition point : Geometry :=
  {| getEnvelopeInternal := {| getHeight := zero; getWidth := zero |};
     getPrecisionModel := floating_pm |}.

(** A geometry whose envelope has a width that is not a number. *)
Definition undetermined : Geometry :=
  {| getEnvelopeInternal := {| getHeight := one; getWidth := NaN |};
     getPrecisionModel := floating_pm |}.

(** A builder every call of which fails with a robustness failure, tagged
    by the number of calls made before it. *)
Definition always_robustness_failure (history : list Attempt) (a : Attempt)
  : completion :=
  Throw (verr (RobustnessFailure (List.length history))).

End Sample.

(* ================================================================== *)
(** ** The scale factor *)

Section ScaleFactor.

Variable L : Libm.

Lemma not_positive_of_le_zero (d : number) :
  le d zero = true -> gt d zero = false.
Proof.
  destruct d as [s | [ | ] | | [ | ] m e]; cbn; intros H;
    try reflexivity; try discriminate H.
Qed.

(** A distance that is not positive expands by nothing. *)
Lemma expand_by_nothing (distance : value) :
  gt (ToNumber distance) zero = false ->
  ToNumber (if gt (ToNumber distance) zero then distance else vnum zero) = zero.
Proof. intros H. rewrite H. reflexivity. Qed.

Lemma Math_log_ten_positive :
  exists m e, Math_log L ten = S754_finite false m e.
Proof.
  pose proof (log_ten_positive L) as H. unfold Math_log.
  destruct (log_with (log_finite L) ten) as [s | s | | [ | ] m e];
    try discriminate H.
  exists m, e. reflexivity.
Qed.

Lemma sub_NaN (x : number) : sub x NaN = NaN.
Proof. destruct x as [s | s | | s m e]; reflexivity. Qed.

Lemma sub_finite_from_infinity (s : bool) (p : number) :
  is_finite p = true -> sub (S754_infinity s) p = S754_infinity s.
Proof. destruct p as [sp | sp | | sp m e]; intros H; try discriminate H; reflexivity. Qed.

Lemma Math_max_finite (a b : number) :
  is_finite a = true -> is_finite b = true -> is_finite (Math_max a b) = true.
Proof.
  intros Ha Hb. unfold Math_max.
  destruct a as [sa | sa | | sa ma ea]; try discriminate Ha;
    destruct b as [sb | sb | | sb mb eb]; try discriminate Hb; cbn.
  - destruct sa, sb; reflexivity.
  - destruct sb; reflexivity.
  - destruct sa; reflexivity.
  - destruct sa, sb; cbn; try reflexivity;
      destruct (Z.compare ea eb); cbn; try reflexivity;
      destruct (Pos.compare_cont Eq ma mb); reflexivity.
Qed.

Lemma add_infinity_to_finite (a : number) :
  is_finite a = true -> add a PosInf = PosInf.
Proof. destruct a as [s | s | | s m e]; intros H; try discriminate H; reflexivity. Qed.

(** The scale factor once the logarithm of the size is an infinity. *)
Lemma scale_of_infinite_logarithm (s : bool) (p : number) :
  is_finite p = true ->
  Math_pow_10 L
    (neg (sub (add (div (S754_infinity s) (Math_log L ten)) one) p))
  = if s then PosInf else zero.
Proof.
  intros Hp. destruct Math_log_ten_positive as [m [e Hten]]. rewrite Hten.
  destruct s, p as [sp | sp | | sp mp ep]; try discriminate Hp; reflexivity.
Qed.

(** C9: the function reads the distance through [max(distance, 0)] and the
    geometry through the width and the height of its envelope: two
    distances that are not positive give the same scale factor, and so do
    two geometries whose envelopes have the same width and height. *)
Theorem C9_precisionScaleFactor_reads_size_only
  (g g' : Geometry) (d1 d2 : number) (distance p : value) :
  (le d1 zero = true ->
   le d2 zero = true ->
   precisionScaleFactor L g (vnum d1) p = precisionScaleFactor L g (vnum d2) p)
  /\ (getWidth (getEnvelopeInternal g) = getWidth (getEnvelopeInternal g') ->
      getHeight (getEnvelopeInternal g) = getHeight (getEnvelopeInternal g') ->
      precisionScaleFactor L g distance p = precisionScaleFactor L g' distance p).
Proof.
  split.
  - intros H1 H2. unfold precisionScaleFactor.
    rewrite (@expand_by_nothing (vnum d1) (@not_positive_of_le_zero d1 H1)).
    rewrite (@expand_by_nothing (vnum d2) (@not_positive_of_le_zero d2 H2)).
    reflexivity.
  - intros Hw Hh. unfold precisionScaleFactor. rewrite Hw, Hh. reflexivity.
Qed.

(** X4: a distance that is not a number, [null] or missing is read as the
    distance 0, and a digit count that is missing or not a number makes the
    result not a number, whatever the geometry. *)
Theorem X4_arguments_that_are_not_numbers
  (g : Geometry) (distance p : value) :
  precisionScaleFactor L g (vnum NaN) p = precisionScaleFactor L g (vnum zero) p
  /\ precisionScaleFactor L g undefined p = precisionScaleFactor L g (vnum zero) p
  /\ precisionScaleFactor L g null p = precisionScaleFactor L g (vnum zero) p
  /\ precisionScaleFactor L g distance undefined = NaN
  /\ precisionScaleFactor L g distance (vnum NaN) = NaN.
Proof.
  repeat split; try reflexivity;
    unfold precisionScaleFactor; cbn [ToNumber]; rewrite sub_NaN; reflexivity.
Qed.

(** X5: for an envelope of finite width and height and a finite digit
    count, the distance plus infinity gives the scale factor 0. *)
Theorem X5_infinite_distance_gives_scale_zero
  (g : Geometry) (p : number) :
  is_finite (getWidth (getEnvelopeInternal g)) = true ->
  is_finite (getHeight (getEnvelopeInternal g)) = true ->
  is_finite p = true ->
  precisionScaleFactor L g (vnum PosInf) (vnum p) = zero.
Proof.
  intros Hw Hh Hp. unfold precisionScaleFactor.
  cbn [ToNumber]. change (gt PosInf zero) with true. cbn [ToNumber].
  change (mul two PosInf) with PosInf.
  rewrite (@add_infinity_to_finite _ (@Math_max_finite _ _ Hh Hw)).
  change (Math_log L PosInf) with PosInf.
  apply (@scale_of_infinite_logarithm false p Hp).
Qed.

(** X16: when the width or the height of the envelope is not a number, the
    scale factor is not a number, whatever the distance, the digit count
    and the engine. *)
Theorem X16_envelope_that_is_not_a_number
  (g : Geometry) (distance p : value) :
  getWidth (getEnvelopeInternal g) = NaN
  \/ getHeight (getEnvelopeInternal g) = NaN ->
  precisionScaleFactor L g distance p = NaN.
Proof.
  intros H. unfold precisionScaleFactor.
  assert (Hmax : Math_max (getHeight (getEnvelopeInternal g))
                   (getWidth (getEnvelopeInternal g)) = NaN).
  { destruct H as [H | H]; rewrite H; unfold Math_max.
    - destruct (getHeight (getEnvelopeInternal g)); reflexivity.
    - reflexivity. }
  rewrite Hmax. reflexivity.
Qed.


End ScaleFactor.

Lemma C9_witness :
  precisionScaleFactor Sample.engine Sample.unit_square
    (vnum (of_Z (-1))) (vnum Sample.twelve)
  = precisionScaleFactor Sample.engine Sample.unit_square
      (vnum NegInf) (vnum Sample.twelve)
  /\ precisionScaleFactor Sample.engine Sample.unit_square
       (vnum Sample.half) (vnum Sample.twelve)
     = precisionScaleFactor Sample.engine Sample.fixed_square
         (vnum Sample.half) (vnum Sample.twelve).
Proof.
  split.
  - exact (proj1 (C9_precisionScaleFactor_reads_size_only
                    Sample.engine Sample.unit_square Sample.unit_square
                    (of_Z (-1)) NegInf undefined (vnum Sample.twelve))
                 eq_refl eq_refl).
  - exact (proj2 (C9_precisionScaleFactor_reads_size_only
                    Sample.engine Sample.unit_square Sample.fixed_square
                    NaN NaN (vnum Sample.half) (vnum Sample.twelve))
                 eq_refl eq_refl).
Defined.

Lemma X5_witness :
  precisionScaleFactor Sample.engine Sample.unit_square
    (vnum PosInf) (vnum Sample.twelve)
  = zero.
Proof.
  exact (@X5_infinite_distance_gives_scale_zero Sample.engine
           Sample.unit_square Sample.twelve eq_refl eq_refl eq_refl).
Defined.

Lemma X16_witness :
  precisionScaleFactor Sample.engine Sample.undetermined
    (vnum Sample.half) (vnum Sample.twelve)
  = NaN.
Proof.
  exact (@X16_envelope_that_is_not_a_number Sample.engine Sample.undetermined
           (vnum Sample.half) (vnum Sample.twelve) (or_introl eq_refl)).
Defined.



(* ================================================================== *)
(** ** The methods *)

Arguments call : simpl never.

Local Open Scope string_scope.
Local Open Scope list_scope.

Section Run.

Variable buffer : list Attempt -> Attempt -> completion.

Lemma call_S (d : nat) (name : string) (args : list value) :
  call buffer (S d) name args
  = match resolve name prototype with
    | Some m => body buffer (call buffer d) d m args
    | None => throw (verr TypeError)
    end.
Proof. reflexivity. Qed.

(** The member [bufferReducedPrecision] is the definition of line 258; the
    loop of line 234 is bound to no name. *)
Lemma bufferReducedPrecision_is_line_258 :
  resolve "bufferReducedPrecision" prototype = Some bufferReducedPrecision_258.
Proof. reflexivity. Qed.

Lemma loop_is_bound_to_no_name (name : string) :
  resolve name prototype <> Some bufferReducedPrecision_234.
Proof.
  unfold prototype. cbn [resolve].
  repeat match goal with
         | |- context [String.eqb ?a ?b] => destruct (String.eqb a b)
         end; discriminate.
Qed.

(** Line 254 reads [bufParams] before the builder is made or called. *)
Lemma bufferOriginalPrecision_throws (st : State) :
  bufferOriginalPrecision buffer st
  = (Throw (verr (ReferenceError "bufParams")), st).
Proof. reflexivity. Qed.

(** Line 270 reads [ScaledNoder] first. *)
Lemma bufferFixedPrecision_throws (fixedPM : value) (st : State) :
  bufferFixedPrecision buffer fixedPM st
  = (Throw (verr (ReferenceError "ScaledNoder")), st).
Proof. reflexivity. Qed.

(** Line 261 reads [precisionScaleFactor] before its arguments. *)
Lemma bufferReducedPrecision_digits_throws (precisionDigits : value) (st : State) :
  bufferReducedPrecision_digits precisionDigits st
  = (Throw (verr (ReferenceError "precisionScaleFactor")), st).
Proof. reflexivity. Qed.

(** Line 236 reads [MAX_PRECISION_DIGITS] before the first turn. *)
Lemma bufferReducedPrecision_loop_throws
  (self : string -> list value -> M) (turns : nat) (st : State) :
  bufferReducedPrecision_loop self turns st
  = (Throw (verr (ReferenceError "MAX_PRECISION_DIGITS")), st).
Proof. reflexivity. Qed.

(** The [catch] of line 239 takes whatever the attempt throws. *)
Lemma try_takes_whatever_is_thrown
  (self : string -> list value -> M) (precDigits ex : value) (st st' : State) :
  self "bufferReducedPrecision" [precDigits] st = (Throw ex, st') ->
  try_bufferReducedPrecision self precDigits st
  = (Normal ex,
     {| this := this st';
        scope := {| global_resultGeometry := global_resultGeometry (scope st');
                    global_saveException := Some ex |};
        calls := calls st' |}).
Proof. intros H. unfold try_bufferReducedPrecision. rewrite H. reflexivity. Qed.

Lemma computeGeometry_throws (depth : nat) (args : list value) (st : State) :
  call buffer (S (S depth)) "computeGeometry" args st
  = (Throw (verr (ReferenceError "bufParams")), st).
Proof. reflexivity. Qed.

(** [getResultGeometry(dist)] stores the distance and fails at line 254. *)
Lemma getResultGeometry_throws (depth : nat) (dist : value) (st : State) :
  call buffer (S (S (S depth))) "getResultGeometry" [dist] st
  = (Throw (verr (ReferenceError "bufParams")), requested dist st).
Proof. reflexivity. Qed.

Lemma ReferenceError_is_not_BufferComputationFailed (name : string) :
  ~ is_BufferComputationFailed (Throw (verr (ReferenceError name))).
Proof. intros [cause H]. discriminate H. Qed.

Lemma ReferenceError_is_not_InvalidArgument (name : string) :
  ~ is_InvalidArgument (Throw (verr (ReferenceError name))).
Proof. intros [tag H]. discriminate H. Qed.

Lemma ReferenceError_is_not_RobustnessFailure (name : string) :
  ~ is_RobustnessFailure (Throw (verr (ReferenceError name))).
Proof. intros [tag H]. discriminate H. Qed.

(** C1: for a geometry of floating precision, [getResultGeometry] fails at
    line 254 with a [ReferenceError] for [bufParams], whatever the builder
    would answer: no attempt is made, for 12 digits or any other count.
    The member [bufferReducedPrecision] that line 231 names is the
    definition of line 258, not the loop, and a call of it fails with a
    [ReferenceError] for [precisionScaleFactor]. *)
Theorem C1_floating_geometry_ladder_is_not_run
  (g : Geometry) (params dist : value) (sc : Scope) (history : list Attempt)
  (depth : nat) :
  getType (getPrecisionModel g) = FLOATING ->
  call buffer (S (S (S depth))) "getResultGeometry" [dist]
    (created params (vgeom g) sc history)
  = (Throw (verr (ReferenceError "bufParams")),
     requested dist (created params (vgeom g) sc history))
  /\ calls (requested dist (created params (vgeom g) sc history)) = history
  /\ resolve "bufferReducedPrecision" prototype
     = Some bufferReducedPrecision_258
  /\ (forall (d : nat) (args : list value) (st : State),
        call buffer (S d) "bufferReducedPrecision" args st
        = (Throw (verr (ReferenceError "precisionScaleFactor")), st)).
Proof.
  intros _. split; [ apply getResultGeometry_throws | ].
  split; [ reflexivity | ].
  split; [ exact bufferReducedPrecision_is_line_258 | ].
  intros d args st. reflexivity.
Qed.

(** C2: [getResultGeometry] does not end by raising
    [BufferComputationFailed]: it ends with the [ReferenceError] of line
    254, and then the operation holds neither a result nor a retained
    failure: its member [resultGeometry] is [null] and neither
    [resultGeometry] nor [saveException] is bound. *)
Theorem C2_exhaustion_is_not_reported
  (params g dist : value) (history : list Attempt) (depth : nat) :
  ~ is_BufferComputationFailed
      (fst (call buffer (S (S (S depth))) "getResultGeometry" [dist]
              (created params g no_globals history)))
  /\ resultGeometry
       (this (snd (call buffer (S (S (S depth))) "getResultGeometry" [dist]
                     (created params g no_globals history))))
     = null
  /\ lookup "resultGeometry"
       (scope (snd (call buffer (S (S (S depth))) "getResultGeometry" [dist]
                      (created params g no_globals history))))
     = None
  /\ lookup "saveException"
       (scope (snd (call buffer (S (S (S depth))) "getResultGeometry" [dist]
                      (created params g no_globals history))))
     = None
  /\ calls (snd (call buffer (S (S (S depth))) "getResultGeometry" [dist]
                   (created params g no_globals history)))
     = history.
Proof.
  rewrite getResultGeometry_throws. cbn [fst snd].
  split; [ apply ReferenceError_is_not_BufferComputationFailed | ].
  repeat split.
Qed.

(** C3: the failure that escapes [getResultGeometry] is a [ReferenceError]:
    neither a [BufferComputationFailed] nor an [InvalidArgument] (nor a
    robustness failure), for every geometry, distance, parameters and
    builder. *)
Theorem C3_a_ReferenceError_escapes
  (params g dist : value) (sc : Scope) (history : list Attempt) (depth : nat) :
  is_ReferenceError
    (fst (call buffer (S (S (S depth))) "getResultGeometry" [dist]
            (created params g sc history)))
  /\ ~ is_BufferComputationFailed
         (fst (call buffer (S (S (S depth))) "getResultGeometry" [dist]
                 (created params g sc history)))
  /\ ~ is_InvalidArgument
         (fst (call buffer (S (S (S depth))) "getResultGeometry" [dist]
                 (created params g sc history)))
  /\ ~ is_RobustnessFailure
         (fst (call buffer (S (S (S depth))) "getResultGeometry" [dist]
                 (created params g sc history))).
Proof.
  rewrite getResultGeometry_throws. cbn [fst].
  split; [ eexists; reflexivity | ].
  split; [ apply ReferenceError_is_not_BufferComputationFailed | ].
  split; [ apply ReferenceError_is_not_InvalidArgument
         | apply ReferenceError_is_not_RobustnessFailure ].
Qed.

(** C4: for a geometry of fixed precision, [getResultGeometry] fails at line
    254 with a [ReferenceError] for [bufParams]: the builder is not called,
    neither for the fast path nor for a further attempt.  A call of the
    member [bufferFixedPrecision] fails with a [ReferenceError] for
    [ScaledNoder] before it makes a builder. *)
Theorem C4_fixed_geometry_no_further_attempt
  (g : Geometry) (params dist : value) (sc : Scope) (history : list Attempt)
  (depth : nat) :
  getType (getPrecisionModel g) = FIXED ->
  call buffer (S (S (S depth))) "getResultGeometry" [dist]
    (created params (vgeom g) sc history)
  = (Throw (verr (ReferenceError "bufParams")),
     requested dist (created params (vgeom g) sc history))
  /\ calls (requested dist (created params (vgeom g) sc history)) = history
  /\ (forall (d : nat) (st : State),
        call buffer (S d) "bufferFixedPrecision"
          [vpm (getPrecisionModel g)] st
        = (Throw (verr (ReferenceError "ScaledNoder")), st)).
Proof.
  intros _. split; [ apply getResultGeometry_throws | ].
  split; [ reflexivity | ].
  intros d st. reflexivity.
Qed.


(** C10: the property [bufferOp] holds the definition of line 175, and every
    call of it, a two-argument call included, runs that body, which fails
    at [new BufferOp(g)] (line 177) with a [ReferenceError] for [BufferOp]:
    no object is constructed and the builder is not called. *)
Theorem C10_bufferOp_is_the_last_definition_and_throws
  (args : list value) (sc : Scope) (history : list Attempt) (depth : nat) :
  resolve "bufferOp" statics = Some bufferOp_175
  /\ call_static buffer (S depth) "bufferOp" args sc history
     = static_body buffer depth bufferOp_175 args sc history
  /\ call_static buffer (S depth) "bufferOp" args sc history
     = (Throw (verr (ReferenceError "BufferOp")), sc, history).
Proof. repeat split. Qed.


End Run.

Lemma C1_witness :
  call Sample.always_robustness_failure 3 "getResultGeometry"
    [vnum Sample.half]
    (created Sample.params (vgeom Sample.unit_square) no_globals [])
  = (Throw (verr (ReferenceError "bufParams")),
     requested (vnum Sample.half)
       (created Sample.params (vgeom Sample.unit_square) no_globals [])).
Proof.
  exact (proj1 (@C1_floating_geometry_ladder_is_not_run
                  Sample.always_robustness_failure Sample.unit_square
                  Sample.params (vnum Sample.half) no_globals [] 0 eq_refl)).
Defined.

Lemma C4_witness :
  call Sample.always_robustness_failure 3 "getResultGeometry"
    [vnum Sample.half]
    (created Sample.params (vgeom Sample.fixed_square) no_globals [])
  = (Throw (verr (ReferenceError "bufParams")),
     requested (vnum Sample.half)
       (created Sample.params (vgeom Sample.fixed_square) no_globals [])).
Proof.
  exact (proj1 (@C4_fixed_geometry_no_further_attempt
                  Sample.always_robustness_failure Sample.fixed_square
                  Sample.params (vnum Sample.half) no_globals [] 0 eq_refl)).
Defined.
